(** * App.tsx: the interstitial gate, the back button and the offline screen

    A shallow embedding of the single React component of the repository
    ([src/App.tsx]).  The component is event wiring: every listener and
    every prop callback of the source becomes a handler in a small
    state-and-output monad, the JSX returned by [App] becomes a tree of
    [Element]s, and the platform (ad SDK, WebView, NetInfo, BackHandler,
    Alert, timers) is the environment that delivers [Event]s and receives
    [Effect]s.  The start-up sequence of [initializeApp] (permission
    request, SDK initialisation, first [load()]) only decides whether a
    first LOADED event arrives; sessions start after it. *)

From Stdlib Require Import ZArith List String Bool Lia Sorted.
Import ListNotations.

Local Open Scope string_scope.
Local Open Scope list_scope.
Local Open Scope Z_scope.

(** ** JavaScript values the handlers test *)

Module JS.

(** [ToBoolean] on a [number | null]: [null] and [0] are falsy
    ([Date.now()] is an integer, so there is no [NaN] to consider). *)
Definition truthy (v : option Z) : bool :=
  match v with
  | None => false
  | Some n => negb (n =? 0)
  end.

(** [ToNumber] on a [number | null]: [null] becomes [0]. *)
Definition to_number (v : option Z) : Z :=
  match v with
  | None => 0
  | Some n => n
  end.

(** [v ?? d]: the default is taken for [null] and [undefined] only. *)
Definition nullish {A : Type} (v : option A) (d : A) : A :=
  match v with
  | Some x => x
  | None => d
  end.

End JS.

(** ** Constants of the source *)

Definition interstitialUnitId : string := "ca-app-pub-8822060341834022/1963644004".
Definition bannerUnitId : string := "ca-app-pub-8822060341834022/8240730325".
Definition uri : string := "https://unimaidresources.com.ng".

(** [5 * 60 * 1000], the literal of the LOADED listener. *)
Definition cooldown : Z := 5 * 60 * 1000.

(** [setTimeout(..., 1000)] of [handleRefresh]. *)
Definition refreshDelay : Z := 1000.

(** ** State

    [lastAdTime] is the module-level [let]; the five booleans are the
    [useState] cells of [App]; [timeouts] is the runtime's queue of
    [setTimeout] callbacks that were scheduled and did not run yet, each
    with the time it is due (all of them are [() => setRefreshing(false)],
    scheduled with the same delay, so the queue is in firing order). *)

Record State : Type := mkState {
  lastAdTime  : option Z;
  showWebView : bool;
  isLoading   : bool;
  canGoBack   : bool;
  refreshing  : bool;
  isConnected : bool;
  timeouts    : list Z
}.

(** The state of a freshly mounted [App]: the [useState] initial values.
    [lastAdTime] outlives the component, so a mount inherits it; at process
    start it is [null]. *)
Definition mount (last : option Z) : State :=
  {| lastAdTime := last;
     showWebView := false;
     isLoading := true;
     canGoBack := false;
     refreshing := false;
     isConnected := true;
     timeouts := [] |}.

Definition processStart : State := mount None.

(** ** Events and effects *)

(** What a button of an [Alert] runs when pressed. *)
Inductive Callback : Type :=
| ExitAppCallback.                    (* () => BackHandler.exitApp() *)

Record AlertButton : Type := mkButton {
  text    : string;
  style   : option string;
  onPress : option Callback
}.

Inductive LogMsg : Type :=
| ShowingInterstitial
| InterstitialSkipped
| InterstitialClosed.

Definition logText (m : LogMsg) : string :=
  match m with
  | ShowingInterstitial => "✅ Showing interstitial ad"
  | InterstitialSkipped => "🕒 Interstitial skipped, not enough time passed"
  | InterstitialClosed => "✅ Interstitial ad closed"
  end.

(** Calls the handlers make on the platform. *)
Inductive Effect : Type :=
| ConsoleLog (m : LogMsg)
| ConsoleWarn (prefix payload : string)
| InterstitialShow                    (* interstitialRef.current.show() *)
| InterstitialLoad                    (* interstitialRef.current.load() *)
| WebViewGoBack                       (* webViewRef.current.goBack() *)
| WebViewReload                       (* webViewRef.current.reload() *)
| AlertAlert (title message : string) (buttons : list AlertButton)
             (cancelable : bool)
| SetTimeout (delay : Z)
| BackHandlerExitApp.

(** Notifications the platform delivers.  Each is handled at a clock
    reading [now], which is what [Date.now()] returns inside the handler. *)
Inductive Event : Type :=
| NetInfoChange (state_isConnected : option bool)
| AdLoaded                            (* AdEventType.LOADED *)
| AdClosed                            (* AdEventType.CLOSED *)
| HardwareBackPress
| AlertButtonPress (b : AlertButton)
| NavigationStateChange (navState_canGoBack : bool)
| LoadStart
| LoadEnd
| LoadError (nativeEvent : string)
| Refresh                             (* onRefresh, and onPress of Try Again *)
| TimeoutFired.

(** ** The rendered tree *)

#[local] Set Warnings "-register-all".

Inductive Element : Type :=
| View (styleName : string) (children : list Element)
| ActivityIndicator
| WebView (source : string) (pullToRefreshEnabled : bool)
          (refreshControl : Element)
| RefreshControl (isRefreshing : bool) (onRefresh : Event)
| ScrollView (refreshControl : Element) (children : list Element)
| Text (content : string)
| TouchableOpacity (onPressEvent : Event) (children : list Element)
| BannerAd (unitId : string).

(** The [return] of [App]; [cond && x] and [cond ? x : null] render
    nothing when they yield [false] or [null]. *)
Definition render (s : State) : Element :=
  View "container"
    ((if showWebView s then
        if isConnected s then
          (if isLoading s
           then [View "loadingOverlay" [ActivityIndicator]]
           else [])
          ++ [WebView uri true (RefreshControl (refreshing s) Refresh)]
        else
          [ScrollView (RefreshControl (refreshing s) Refresh)
             [Text "No Internet Connection";
              TouchableOpacity Refresh [Text "Try Again"]]]
      else [])
     ++ [View "bannerContainer" [BannerAd bannerUnitId]]).

(** Does the tree contain the embedded browser? *)
Fixpoint hasWebView (e : Element) : bool :=
  match e with
  | View _ cs => existsb hasWebView cs
  | WebView _ _ _ => true
  | ScrollView rc cs => hasWebView rc || existsb hasWebView cs
  | TouchableOpacity _ cs => existsb hasWebView cs
  | ActivityIndicator | RefreshControl _ _ | Text _ | BannerAd _ => false
  end.

(** Does the tree contain a [Text] with this content? *)
Fixpoint hasText (t : string) (e : Element) : bool :=
  match e with
  | View _ cs => existsb (hasText t) cs
  | WebView _ _ rc => hasText t rc
  | ScrollView rc cs => hasText t rc || existsb (hasText t) cs
  | TouchableOpacity _ cs => existsb (hasText t) cs
  | Text c => String.eqb c t
  | ActivityIndicator | RefreshControl _ _ | BannerAd _ => false
  end.

Definition isRefresh (e : Event) : bool :=
  match e with
  | Refresh => true
  | _ => false
  end.

(** Does the tree contain a touchable labelled [t] that runs
    [handleRefresh]? *)
Fixpoint hasRetryControl (t : string) (e : Element) : bool :=
  match e with
  | View _ cs => existsb (hasRetryControl t) cs
  | WebView _ _ rc => hasRetryControl t rc
  | ScrollView rc cs => hasRetryControl t rc || existsb (hasRetryControl t) cs
  | TouchableOpacity ev cs => isRefresh ev && existsb (hasText t) cs
  | ActivityIndicator | RefreshControl _ _ | Text _ | BannerAd _ => false
  end.

(** The offline screen: the message and the retry control. *)
Definition showsOffline (e : Element) : bool :=
  hasText "No Internet Connection" e && hasRetryControl "Try Again" e.

(** [webViewRef.current]: React attaches the ref while the [WebView] is in
    the committed tree and resets it to [null] when it is not.  A handler
    runs against the tree of the state it starts in. *)
Definition webViewRef_current (s : State) : bool := hasWebView (render s).

(** ** Handlers

    A handler reads the clock, reads and updates the state, and calls the
    platform; the calls are collected in order. *)

Definition Handler (A : Type) : Type := Z -> State -> A * State * list Effect.

Definition ret {A : Type} (a : A) : Handler A :=
  fun _ s => (a, s, []).

Definition bind {A B : Type} (m : Handler A) (k : A -> Handler B) : Handler B :=
  fun now s =>
    let '(a, s1, o1) := m now s in
    let '(b, s2, o2) := k a now s1 in
    (b, s2, o1 ++ o2).

Declare Scope handler_scope.
Delimit Scope handler_scope with handler.
Notation "x <- m ;; k" := (bind m (fun x => k))
  (at level 61, m at next level, right associativity) : handler_scope.
Notation "m ;; k" := (bind m (fun _ => k))
  (at level 61, right associativity) : handler_scope.
Local Open Scope handler_scope.

Definition read {A : Type} (f : State -> A) : Handler A :=
  fun _ s => (f s, s, []).

Definition modify (f : State -> State) : Handler unit :=
  fun _ s => (tt, f s, []).

Definition emit (e : Effect) : Handler unit :=
  fun _ s => (tt, s, [e]).

(** [Date.now()] *)
Definition dateNow : Handler Z :=
  fun now s => (now, s, []).

(** The [useState] setters and the assignment to the module variable. *)
Definition setShowWebView (b : bool) : Handler unit :=
  modify (fun s => mkState (lastAdTime s) b (isLoading s) (canGoBack s)
                           (refreshing s) (isConnected s) (timeouts s)).

Definition setIsLoading (b : bool) : Handler unit :=
  modify (fun s => mkState (lastAdTime s) (showWebView s) b (canGoBack s)
                           (refreshing s) (isConnected s) (timeouts s)).

Definition setCanGoBack (b : bool) : Handler unit :=
  modify (fun s => mkState (lastAdTime s) (showWebView s) (isLoading s) b
                           (refreshing s) (isConnected s) (timeouts s)).

Definition setRefreshing (b : bool) : Handler unit :=
  modify (fun s => mkState (lastAdTime s) (showWebView s) (isLoading s)
                           (canGoBack s) b (isConnected s) (timeouts s)).

Definition setIsConnected (b : bool) : Handler unit :=
  modify (fun s => mkState (lastAdTime s) (showWebView s) (isLoading s)
                           (canGoBack s) (refreshing s) b (timeouts s)).

Definition assignLastAdTime (t : Z) : Handler unit :=
  modify (fun s => mkState (Some t) (showWebView s) (isLoading s)
                           (canGoBack s) (refreshing s) (isConnected s)
                           (timeouts s)).

(** [setTimeout(cb, delay)]: the call, and the callback queued by the
    runtime for [now + delay]. *)
Definition setTimeout (delay : Z) : Handler unit :=
  fun now s =>
    (tt,
     mkState (lastAdTime s) (showWebView s) (isLoading s) (canGoBack s)
             (refreshing s) (isConnected s) (timeouts s ++ [now + delay]),
     [SetTimeout delay]).

(** The listener given to [NetInfo.addEventListener]. *)
Definition onNetInfo (state_isConnected : option bool) : Handler unit :=
  setIsConnected (JS.nullish state_isConnected true).

(** The test of the LOADED listener,
    [!lastAdTime || now - lastAdTime >= 5 * 60 * 1000]. *)
Definition adDue (now : Z) (last : option Z) : bool :=
  negb (JS.truthy last) || (now - JS.to_number last >=? cooldown).

(** The [AdEventType.LOADED] listener. *)
Definition onAdLoaded : Handler unit :=
  now <- dateNow ;;
  last <- read lastAdTime ;;
  if adDue now last then
    emit (ConsoleLog ShowingInterstitial) ;;
    emit InterstitialShow ;;
    assignLastAdTime now
  else
    emit (ConsoleLog InterstitialSkipped) ;;
    setShowWebView true ;;
    setIsLoading false.

(** The [AdEventType.CLOSED] listener. *)
Definition onAdClosed : Handler unit :=
  emit (ConsoleLog InterstitialClosed) ;;
  setShowWebView true ;;
  setIsLoading false ;;
  emit InterstitialLoad.

(** The dialog of [backAction]. *)
Definition cancelButton : AlertButton := mkButton "Cancel" (Some "cancel") None.
Definition exitButton : AlertButton := mkButton "Exit" None (Some ExitAppCallback).

Definition exitAlert : Effect :=
  AlertAlert "Exit App" "Are you sure you want to exit the app?"
             [cancelButton; exitButton] true.

(** [backAction]; its result is what it returns to [BackHandler]. *)
Definition backAction : Handler bool :=
  visible <- read showWebView ;;
  ref <- read webViewRef_current ;;
  back <- read canGoBack ;;
  if visible && ref && back then
    emit WebViewGoBack ;;
    ret true
  else
    emit exitAlert ;;
    ret true.

(** [BackHandler] on a hardware back press: the registered handler runs,
    and the default action, leaving the app, is taken when it does not
    return [true]. *)
Definition onHardwareBackPress : Handler unit :=
  handled <- backAction ;;
  if handled then ret tt else emit BackHandlerExitApp.

(** A press on a button of the dialog runs the button's [onPress]. *)
Definition onAlertButtonPress (b : AlertButton) : Handler unit :=
  match onPress b with
  | Some ExitAppCallback => emit BackHandlerExitApp
  | None => ret tt
  end.

Definition handleNavigationStateChange (navState_canGoBack : bool)
  : Handler unit :=
  setCanGoBack navState_canGoBack.

(** [onLoadStart], [onLoadEnd] and [onError] of the [WebView]. *)
Definition onLoadStart : Handler unit := setIsLoading true.
Definition onLoadEnd : Handler unit := setIsLoading false.

Definition onError (nativeEvent : string) : Handler unit :=
  emit (ConsoleWarn "WebView error: " nativeEvent) ;;
  setIsLoading false.

(** [handleRefresh]; [webViewRef.current?.reload()] calls [reload] only
    when the ref is attached. *)
Definition handleRefresh : Handler unit :=
  setRefreshing true ;;
  ref <- read webViewRef_current ;;
  (if ref then emit WebViewReload else ret tt) ;;
  setTimeout refreshDelay.

(** The runtime runs the oldest queued callback,
    [() => setRefreshing(false)]; with nothing queued there is nothing to
    run. *)
Definition onTimeout : Handler unit :=
  fun now s =>
    match timeouts s with
    | [] => (tt, s, [])
    | _ :: rest =>
        setRefreshing false now
          (mkState (lastAdTime s) (showWebView s) (isLoading s) (canGoBack s)
                   (refreshing s) (isConnected s) rest)
    end.

Definition dispatch (e : Event) : Handler unit :=
  match e with
  | NetInfoChange c => onNetInfo c
  | AdLoaded => onAdLoaded
  | AdClosed => onAdClosed
  | HardwareBackPress => onHardwareBackPress
  | AlertButtonPress b => onAlertButtonPress b
  | NavigationStateChange c => handleNavigationStateChange c
  | LoadStart => onLoadStart
  | LoadEnd => onLoadEnd
  | LoadError ev => onError ev
  | Refresh => handleRefresh
  | TimeoutFired => onTimeout
  end.

(** One event, handled at clock reading [now]. *)
Definition step (now : Z) (e : Event) (s : State) : State * list Effect :=
  let '(_, s', out) := dispatch e now s in (s', out).

(** A session: events in the order the platform delivers them, each with
    the clock reading at which its handler runs. *)
Fixpoint run (tr : list (Z * Event)) (s : State) : State * list Effect :=
  match tr with
  | [] => (s, [])
  | (now, e) :: tr' =>
      let '(s1, o1) := step now e s in
      let '(s2, o2) := run tr' s1 in
      (s2, o1 ++ o2)
  end.

(** ** Observations on a session *)

Definition isShow (e : Effect) : bool :=
  match e with
  | InterstitialShow => true
  | _ => false
  end.

Definition isSkip (e : Effect) : bool :=
  match e with
  | ConsoleLog InterstitialSkipped => true
  | _ => false
  end.

Definition isReload (e : Effect) : bool :=
  match e with
  | WebViewReload => true
  | _ => false
  end.

Definition isGoBack (e : Effect) : bool :=
  match e with
  | WebViewGoBack => true
  | _ => false
  end.

Definition isAlert (e : Effect) : bool :=
  match e with
  | AlertAlert _ _ _ _ => true
  | _ => false
  end.

Definition isExitApp (e : Effect) : bool :=
  match e with
  | BackHandlerExitApp => true
  | _ => false
  end.

Definition count (p : Effect -> bool) (out : list Effect) : nat :=
  List.length (filter p out).

(** How often [showWebView] goes from [false] to [true] along a session. *)
Fixpoint flips (tr : list (Z * Event)) (s : State) : nat :=
  match tr with
  | [] => 0%nat
  | (now, e) :: tr' =>
      let s1 := fst (step now e s) in
      ((if negb (showWebView s) && showWebView s1 then 1 else 0)
       + flips tr' s1)%nat
  end.

(** Does this event, handled in this state, reveal the content?  The two
    places of the source that call [setShowWebView]: the CLOSED listener
    and the skip branch of the LOADED listener. *)
Definition reveals (now : Z) (e : Event) (s : State) : bool :=
  match e with
  | AdClosed => true
  | AdLoaded => negb (adDue now (lastAdTime s))
  | _ => false
  end.

(** Is there, along the session, an event that reveals the content? *)
Fixpoint revealed (tr : list (Z * Event)) (s : State) : bool :=
  match tr with
  | [] => false
  | (now, e) :: tr' => reveals now e s || revealed tr' (fst (step now e s))
  end.

(** The main area is empty: only the banner is rendered. *)
Definition onlyBanner (e : Element) : bool :=
  match e with
  | View _ [View _ [BannerAd _]] => true
  | _ => false
  end.

Definition runsExitApp (b : AlertButton) : bool :=
  match onPress b with
  | Some ExitAppCallback => true
  | None => false
  end.

(** A clock reading of an ordinary day, in milliseconds since the epoch. *)
Definition t0 : Z := 1700000000000.

(** ** Sessions used as examples *)

(** A launch: the preloaded interstitial arrives, is shown, and is closed
    by the user three seconds later. *)
Definition launch : list (Z * Event) :=
  [(t0, AdLoaded); (t0 + 3000, AdClosed)].

(** The CLOSED listener called [load()], so the SDK reports LOADED again. *)
Definition launchThenPreload : list (Z * Event) :=
  launch ++ [(t0 + 3500, AdLoaded)].

(** The same launch with a clock that starts at zero. *)
Definition launchAtEpoch : list (Z * Event) :=
  [(0, AdLoaded); (3000, AdClosed)].

(** The user follows a link, then the connection drops. *)
Definition browseThenOffline : list (Z * Event) :=
  launchThenPreload
  ++ [(t0 + 4000, LoadEnd);
      (t0 + 9000, NavigationStateChange true);
      (t0 + 20000, NetInfoChange (Some false))].

(** The connection is already down when the app starts. *)
Definition offlineAtLaunch : list (Z * Event) :=
  [(t0, NetInfoChange (Some false))].

(** The connection drops after the gate resolved. *)
Definition resolvedThenOffline : list (Z * Event) :=
  launchThenPreload ++ [(t0 + 20000, NetInfoChange (Some false))].

(** A pull to refresh on the page. *)
Definition oneRefresh : list (Z * Event) :=
  launchThenPreload ++ [(t0 + 5000, Refresh)].

(** Refresh is invoked again after 500 ms, the first timer fires, refresh
    is invoked a third time 200 ms later, and the second timer fires. *)
Definition overlappingRefreshes : list (Z * Event) :=
  oneRefresh
  ++ [(t0 + 5500, Refresh);
      (t0 + 6000, TimeoutFired);
      (t0 + 6200, Refresh)].

(** ** Start-up

    [initializeApp], the [async] function the first effect calls.  Its two
    [await]s are the points where the platform decides how to go on: the
    permission request and [MobileAds().initialize()] each resolve or
    reject, and a rejection is thrown into the [catch].  The synchronous
    calls in between ([console.log], [load()]) are taken not to throw. *)

Inductive PlatformOS : Type :=
| android
| otherOS.

(** [PermissionsAndroid.RESULTS] *)
Inductive PermissionStatus : Type :=
| granted
| denied
| never_ask_again.

Inductive Awaited (A : Type) : Type :=
| Resolved (a : A)
| Rejected (err : string).

Arguments Resolved {A} a.
Arguments Rejected {A} err.

Inductive StartupCall : Type :=
| PermissionsAndroidRequest (permission title message : string)
                            (buttonNeutral buttonNegative buttonPositive : string)
| LogPermission (line : string)
| MobileAdsInitialize
| StartupLoad                         (* interstitialRef.current.load() *)
| WarnCaught (err : string).          (* console.warn(err) *)

Definition isGranted (r : PermissionStatus) : bool :=
  match r with
  | granted => true
  | _ => false
  end.

(** From [await MobileAds().initialize()] on. *)
Definition initializeAds (initialize : Awaited unit) : list StartupCall :=
  MobileAdsInitialize ::
  match initialize with
  | Resolved _ => [StartupLoad]
  | Rejected err => [WarnCaught err]
  end.

Definition initializeApp (os : PlatformOS)
                         (request : Awaited PermissionStatus)
                         (initialize : Awaited unit) : list StartupCall :=
  match os with
  | android =>
      PermissionsAndroidRequest
        "android.permission.READ_EXTERNAL_STORAGE"
        "External Storage Permission" "App needs access to your storage"
        "Ask Me Later" "Cancel" "OK" ::
      match request with
      | Resolved r =>
          LogPermission (if isGranted r
                         then "✅ Storage permission granted"
                         else "❌ Storage permission denied") ::
          initializeAds initialize
      | Rejected err => [WarnCaught err]
      end
  | otherOS => initializeAds initialize
  end.

Definition isStartupLoad (c : StartupCall) : bool :=
  match c with
  | StartupLoad => true
  | _ => false
  end.

Definition isWarnCaught (c : StartupCall) : bool :=
  match c with
  | WarnCaught _ => true
  | _ => false
  end.

Definition isPermissionRequest (c : StartupCall) : bool :=
  match c with
  | PermissionsAndroidRequest _ _ _ _ _ _ => true
  | _ => false
  end.

Definition isLogPermission (c : StartupCall) : bool :=
  match c with
  | LogPermission _ => true
  | _ => false
  end.

Definition isMobileAdsInitialize (c : StartupCall) : bool :=
  match c with
  | MobileAdsInitialize => true
  | _ => false
  end.

(** Did every [await] that was reached resolve? *)
Definition startupResolves (os : PlatformOS)
                           (request : Awaited PermissionStatus)
                           (initialize : Awaited unit) : bool :=
  match os, request, initialize with
  | android, Rejected _, _ => false
  | _, _, Rejected _ => false
  | _, _, Resolved _ => true
  end.

(** ** Further observations on a session *)

Definition isAdLoaded (e : Event) : bool :=
  match e with
  | AdLoaded => true
  | _ => false
  end.

Definition isAdClosed (e : Event) : bool :=
  match e with
  | AdClosed => true
  | _ => false
  end.

Definition isBackPress (e : Event) : bool :=
  match e with
  | HardwareBackPress => true
  | _ => false
  end.

Definition isExitPress (e : Event) : bool :=
  match e with
  | AlertButtonPress b => runsExitApp b
  | _ => false
  end.

Definition isTimeoutFired (e : Event) : bool :=
  match e with
  | TimeoutFired => true
  | _ => false
  end.

Definition isLoad (e : Effect) : bool :=
  match e with
  | InterstitialLoad => true
  | _ => false
  end.

Definition isSetTimeout (e : Effect) : bool :=
  match e with
  | SetTimeout _ => true
  | _ => false
  end.

(** How many events of a kind a session contains. *)
Definition occurrences (p : Event -> bool) (tr : list (Z * Event)) : nat :=
  List.length (filter (fun ev => p (snd ev)) tr).

(** The clock readings at which [show()] was called, in order. *)
Fixpoint showTimes (tr : list (Z * Event)) (s : State) : list Z :=
  match tr with
  | [] => []
  | (now, e) :: tr' =>
      (if existsb isShow (snd (step now e s)) then [now] else [])
      ++ showTimes tr' (fst (step now e s))
  end.

(** Each time is at least the cooldown after the one before it, the first
    one after [last] when there is one. *)
Fixpoint spaced (last : option Z) (ts : list Z) : bool :=
  match ts with
  | [] => true
  | t :: ts' =>
      match last with
      | None => true
      | Some t' => t - t' >=? cooldown
      end && spaced (Some t) ts'
  end.

(** The values carried by the navigation events of a session, and by its
    connectivity notifications after [??]. *)
Definition navigationValues (tr : list (Z * Event)) : list bool :=
  flat_map (fun ev => match snd ev with
                      | NavigationStateChange c => [c]
                      | _ => []
                      end) tr.

Definition connectivityValues (tr : list (Z * Event)) : list bool :=
  flat_map (fun ev => match snd ev with
                      | NetInfoChange c => [JS.nullish c true]
                      | _ => []
                      end) tr.

(** The timers of the queue fire one after the other. *)
Definition fireAll (clocks : list Z) : list (Z * Event) :=
  map (fun now => (now, TimeoutFired)) clocks.

(** The clock does not go backwards along the list, starting from [c]. *)
Fixpoint nondecreasing (c : Z) (l : list Z) : bool :=
  match l with
  | [] => true
  | x :: l' => (c <=? x) && nondecreasing x l'
  end.

(** ** Basic facts about the handlers *)

Ltac handler :=
  unfold step, dispatch, onNetInfo, onAdLoaded, onAdClosed,
    onHardwareBackPress, onAlertButtonPress, handleNavigationStateChange,
    onLoadStart, onLoadEnd, onError, handleRefresh, onTimeout, backAction,
    setTimeout, setShowWebView, setIsLoading, setCanGoBack, setRefreshing,
    setIsConnected, assignLastAdTime, bind, ret, read, modify, emit, dateNow.

Lemma webViewRef_current_spec (s : State) :
  webViewRef_current s = showWebView s && isConnected s.
Proof.
  unfold webViewRef_current, render.
  destruct (showWebView s), (isConnected s), (isLoading s); reflexivity.
Qed.

Lemma showsOffline_render (s : State) :
  showsOffline (render s) = showWebView s && negb (isConnected s).
Proof.
  unfold showsOffline, render.
  destruct (showWebView s), (isConnected s), (isLoading s); reflexivity.
Qed.

Lemma onlyBanner_render (s : State) :
  onlyBanner (render s) = negb (showWebView s).
Proof.
  unfold render.
  destruct (showWebView s), (isConnected s), (isLoading s); reflexivity.
Qed.

(** The LOADED listener, case by case. *)
Lemma step_AdLoaded (now : Z) (s : State) :
  step now AdLoaded s =
  if adDue now (lastAdTime s) then
    (mkState (Some now) (showWebView s) (isLoading s) (canGoBack s)
             (refreshing s) (isConnected s) (timeouts s),
     [ConsoleLog ShowingInterstitial; InterstitialShow])
  else
    (mkState (lastAdTime s) true false (canGoBack s)
             (refreshing s) (isConnected s) (timeouts s),
     [ConsoleLog InterstitialSkipped]).
Proof.
  handler. destruct (adDue now (lastAdTime s)); reflexivity.
Qed.

Lemma step_AdClosed (now : Z) (s : State) :
  step now AdClosed s =
  (mkState (lastAdTime s) true false (canGoBack s)
           (refreshing s) (isConnected s) (timeouts s),
   [ConsoleLog InterstitialClosed; InterstitialLoad]).
Proof. reflexivity. Qed.

Lemma step_HardwareBackPress (now : Z) (s : State) :
  step now HardwareBackPress s =
  (s, if showWebView s && isConnected s && canGoBack s
      then [WebViewGoBack] else [exitAlert]).
Proof.
  handler. rewrite webViewRef_current_spec.
  destruct (showWebView s), (isConnected s), (canGoBack s); reflexivity.
Qed.

Lemma step_Refresh (now : Z) (s : State) :
  step now Refresh s =
  (mkState (lastAdTime s) (showWebView s) (isLoading s) (canGoBack s)
           true (isConnected s) (timeouts s ++ [now + refreshDelay]),
   (if showWebView s && isConnected s then [WebViewReload] else [])
   ++ [SetTimeout refreshDelay]).
Proof.
  handler. cbn [showWebView isLoading canGoBack refreshing isConnected
                lastAdTime timeouts].
  assert (E : webViewRef_current
                (mkState (lastAdTime s) (showWebView s) (isLoading s)
                         (canGoBack s) true (isConnected s) (timeouts s))
              = showWebView s && isConnected s)
    by (rewrite webViewRef_current_spec; reflexivity).
  rewrite E.
  destruct (showWebView s && isConnected s); reflexivity.
Qed.

Lemma step_TimeoutFired (now : Z) (s : State) :
  step now TimeoutFired s =
  match timeouts s with
  | [] => (s, [])
  | _ :: rest =>
      (mkState (lastAdTime s) (showWebView s) (isLoading s) (canGoBack s)
               false (isConnected s) rest, [])
  end.
Proof.
  handler. destruct (timeouts s); reflexivity.
Qed.

(** The only events that touch [showWebView] are the revealing ones, and
    they set it. *)
Lemma step_showWebView (now : Z) (e : Event) (s : State) :
  showWebView (fst (step now e s)) = showWebView s || reveals now e s.
Proof.
  destruct e;
    try (cbn; rewrite ?orb_false_r; reflexivity).
  - rewrite step_AdLoaded. cbn [reveals].
    destruct (adDue now (lastAdTime s)); cbn;
      rewrite ?orb_false_r, ?orb_true_r; reflexivity.
  - cbn. apply eq_sym, orb_true_r.
  - rewrite step_HardwareBackPress. cbn. apply eq_sym, orb_false_r.
  - unfold step, dispatch, onAlertButtonPress.
    destruct (onPress b) as [[]|]; cbn; apply eq_sym, orb_false_r.
  - rewrite step_Refresh. cbn. apply eq_sym, orb_false_r.
  - rewrite step_TimeoutFired.
    destruct (timeouts s); cbn; apply eq_sym, orb_false_r.
Qed.

Lemma run_cons (now : Z) (e : Event) (tr : list (Z * Event)) (s : State) :
  run ((now, e) :: tr) s =
  (fst (run tr (fst (step now e s))),
   snd (step now e s) ++ snd (run tr (fst (step now e s)))).
Proof.
  cbn [run]. destruct (step now e s) as [s1 o1].
  cbn [fst snd]. destruct (run tr s1); reflexivity.
Qed.

Lemma run_showWebView (tr : list (Z * Event)) (s : State) :
  showWebView (fst (run tr s)) = showWebView s || revealed tr s.
Proof.
  revert s. induction tr as [|[now e] tr IH]; intros s.
  - cbn. apply eq_sym, orb_false_r.
  - rewrite run_cons. cbn [fst revealed].
    rewrite IH, step_showWebView. apply eq_sym, orb_assoc.
Qed.

Lemma flips_spec (tr : list (Z * Event)) (s : State) :
  flips tr s = if negb (showWebView s) && revealed tr s then 1%nat else 0%nat.
Proof.
  revert s. induction tr as [|[now e] tr IH]; intros s.
  - cbn. rewrite andb_false_r. reflexivity.
  - cbn [flips revealed]. rewrite IH, step_showWebView.
    destruct (showWebView s), (reveals now e s),
      (revealed tr (fst (step now e s))); reflexivity.
Qed.

Lemma run_app (tr1 tr2 : list (Z * Event)) (s : State) :
  run (tr1 ++ tr2) s =
  (fst (run tr2 (fst (run tr1 s))),
   snd (run tr1 s) ++ snd (run tr2 (fst (run tr1 s)))).
Proof.
  revert s. induction tr1 as [|[now e] tr1 IH]; intros s.
  - cbn. destruct (run tr2 s); reflexivity.
  - rewrite <- app_comm_cons, !run_cons, IH. cbn [fst snd].
    rewrite app_assoc. reflexivity.
Qed.

(** The test of the LOADED listener, spelled out: [!lastAdTime] holds for
    [null] and for the number [0]. *)
Lemma adDue_spec (now : Z) (last : option Z) :
  adDue now last = true <->
  last = None \/ last = Some 0 \/
  exists t, last = Some t /\ now - t >= cooldown.
Proof.
  unfold adDue. destruct last as [t|]; cbn.
  - destruct (Z.eqb_spec t 0) as [->|Hne]; cbn.
    + split; auto.
    + rewrite Z.geb_le. split.
      * intros H. right; right. exists t. split; [reflexivity | lia].
      * intros [H|[H|[t' [H Hge]]]]; try congruence.
        injection H as <-. lia.
  - split; auto.
Qed.

(** Away from a zero timestamp the LOADED listener shows the ad exactly
    when nothing was shown before or the cooldown has elapsed, and reveals
    the content otherwise. *)
Lemma onAdLoaded_cooldown (now : Z) (s : State) :
  lastAdTime s <> Some 0 ->
  (existsb isShow (snd (step now AdLoaded s)) = true <->
   lastAdTime s = None \/
   exists t, lastAdTime s = Some t /\ now - t >= cooldown)
  /\ (existsb isShow (snd (step now AdLoaded s)) = false ->
      showWebView (fst (step now AdLoaded s)) = true
      /\ isLoading (fst (step now AdLoaded s)) = false).
Proof.
  intros Hz. rewrite step_AdLoaded.
  destruct (adDue now (lastAdTime s)) eqn:E; cbn.
  - apply adDue_spec in E. split; [|discriminate].
    split; [|reflexivity]. intros _.
    destruct E as [E|[E|E]]; [auto | contradiction | auto].
  - split; [|auto]. split; [discriminate|].
    intros H. assert (adDue now (lastAdTime s) = true) as E'.
    { apply adDue_spec. destruct H as [H|H]; auto. }
    congruence.
Qed.

(** With a clock that never reads zero, [lastAdTime] is never the
    timestamp [0], so the previous lemma applies at every LOADED event of
    the session. *)
Lemma run_lastAdTime_nonzero (tr : list (Z * Event)) (s : State) :
  Forall (fun ev => fst ev <> 0) tr ->
  lastAdTime s <> Some 0 ->
  lastAdTime (fst (run tr s)) <> Some 0.
Proof.
  revert s. induction tr as [|[now e] tr IH]; intros s Hclk Hs.
  - exact Hs.
  - rewrite run_cons. cbn [fst]. inversion Hclk as [|? ? Hnow Hrest]; subst.
    apply IH; [exact Hrest|]. cbn [fst] in Hnow.
    destruct e; try exact Hs.
    + rewrite step_AdLoaded.
      destruct (adDue now (lastAdTime s)); cbn; [congruence | exact Hs].
    + rewrite step_HardwareBackPress. exact Hs.
    + unfold step, dispatch, onAlertButtonPress.
      destruct (onPress b) as [[]|]; exact Hs.
    + rewrite step_Refresh. exact Hs.
    + rewrite step_TimeoutFired. destruct (timeouts s); exact Hs.
Qed.

(** ** The cooldown (C1) *)

(** C1.  [Date.now()] counts milliseconds since 1970, so the clock of a
    running device never reads zero.  Along every session with such a
    clock, started in any state whose [lastAdTime] is [null] or a
    timestamp other than zero (every mount is one), when the LOADED
    listener fires: [show()] is called if and only if [lastAdTime] is
    unset or [now - lastAdTime >= 300000]; and when [lastAdTime] is set
    and less than 300000 ms have passed, no ad is shown, the skip is
    logged, and the content is revealed at once ([showWebView] set to
    [true], [isLoading] to [false]). *)
Theorem cooldown_gate (tr : list (Z * Event)) (s0 : State) (now : Z) :
  Forall (fun ev => fst ev <> 0) tr ->
  lastAdTime s0 <> Some 0 ->
  (existsb isShow (snd (step now AdLoaded (fst (run tr s0)))) = true <->
   lastAdTime (fst (run tr s0)) = None \/
   exists t, lastAdTime (fst (run tr s0)) = Some t /\ now - t >= 300000)
  /\ (forall t,
        lastAdTime (fst (run tr s0)) = Some t ->
        now - t < 300000 ->
        snd (step now AdLoaded (fst (run tr s0)))
        = [ConsoleLog InterstitialSkipped]
        /\ count isShow (snd (step now AdLoaded (fst (run tr s0)))) = 0%nat
        /\ showWebView (fst (step now AdLoaded (fst (run tr s0)))) = true
        /\ isLoading (fst (step now AdLoaded (fst (run tr s0)))) = false).
Proof.
  intros Hclk Hs0.
  pose proof (run_lastAdTime_nonzero tr s0 Hclk Hs0) as Hs.
  destruct (onAdLoaded_cooldown now (fst (run tr s0)) Hs) as [Hiff _].
  split; [exact Hiff|].
  intros t Ht Hlt. rewrite step_AdLoaded.
  destruct (adDue now (lastAdTime (fst (run tr s0)))) eqn:E.
  - exfalso. apply adDue_spec in E. rewrite Ht in E.
    destruct E as [E|[E|[t' [E Hge]]]].
    + discriminate E.
    + apply Hs. rewrite Ht. exact E.
    + injection E as <-. unfold cooldown in Hge. lia.
  - repeat split.
Qed.

Lemma cooldown_gate_witness :
  existsb isShow
    (snd (step (t0 + 3500) AdLoaded (fst (run launch processStart)))) = false
  /\ showWebView
       (fst (step (t0 + 3500) AdLoaded (fst (run launch processStart))))
     = true.
Proof.
  destruct (cooldown_gate launch processStart (t0 + 3500)) as [_ Hskip].
  - repeat constructor; discriminate.
  - discriminate.
  - split; [reflexivity|].
    destruct (Hskip t0) as [_ [_ [Hshow _]]];
      [reflexivity | reflexivity | exact Hshow].
Defined.

(** The hypothesis on the clock is what the test [!lastAdTime] needs: a
    timestamp of zero is falsy like [null].  In a session whose clock
    does read zero at the first LOADED event, [lastAdTime] becomes [0],
    and the next LOADED event shows the ad again although only 3500 ms
    have passed. *)
Lemma cooldown_ignored_after_zero_timestamp :
  let s := fst (run launchAtEpoch processStart) in
  lastAdTime s = Some 0
  /\ 3500 - 0 < cooldown
  /\ snd (step 3500 AdLoaded s) = [ConsoleLog ShowingInterstitial; InterstitialShow]
  /\ lastAdTime (fst (step 3500 AdLoaded s)) = Some 3500
  /\ count isShow (snd (run (launchAtEpoch ++ [(3500, AdLoaded)]) processStart))
     = 2%nat
  /\ ~ (existsb isShow (snd (step 3500 AdLoaded s)) = true <->
        lastAdTime s = None \/
        exists t, lastAdTime s = Some t /\ 3500 - t >= cooldown).
Proof.
  cbv zeta. repeat (split; [vm_compute; reflexivity|]).
  intros [H _]. destruct (H eq_refl) as [E|[t [E Hge]]].
  - vm_compute in E. discriminate E.
  - vm_compute in E. injection E as <-. vm_compute in Hge. apply Hge.
    reflexivity.
Qed.

(** ** Single resolution (C2) *)

(** C2, as stated, fails on the ordinary launch: the first LOADED shows the
    ad, CLOSED preloads the next one, and the LOADED of that one is
    skipped, so both a show and a skip occur in the session. *)
Lemma single_resolution_counterexample :
  ~ ((count isShow (snd (run launchThenPreload processStart))
      + count isSkip (snd (run launchThenPreload processStart)) = 1)%nat
     /\ flips launchThenPreload processStart = 1%nat).
Proof. intros [H _]. vm_compute in H. discriminate H. Qed.

(** C2, amended.  Every LOADED event either shows the interstitial or
    skips it, never both and never neither; along any session
    [showWebView] goes from [false] to [true] once when the session starts
    gated and contains a CLOSED event or a skipped LOADED event, and not
    at all otherwise, so at most once on either path. *)
Theorem single_resolution_amended
  (now : Z) (tr : list (Z * Event)) (s : State) :
  (count isShow (snd (step now AdLoaded s))
   + count isSkip (snd (step now AdLoaded s)) = 1)%nat
  /\ flips tr s
     = (if negb (showWebView s) && revealed tr s then 1%nat else 0%nat)
  /\ (flips tr s <= 1)%nat
  /\ showWebView (fst (run tr s)) = showWebView s || revealed tr s.
Proof.
  split; [|split; [|split]].
  - rewrite step_AdLoaded.
    destruct (adDue now (lastAdTime s)); reflexivity.
  - apply flips_spec.
  - rewrite flips_spec.
    destruct (negb (showWebView s) && revealed tr s); lia.
  - apply run_showWebView.
Qed.

(** ** The back button (C3) *)

(** C3, as stated, fails once the connection drops after the user followed
    a link: [showWebView] and [canGoBack] are both [true], but the
    [WebView] is not mounted, [webViewRef.current] is [null], and the back
    press opens the exit dialog instead of going back. *)
Lemma back_routing_counterexample :
  ~ (showWebView (fst (run browseThenOffline processStart)) = true ->
     canGoBack (fst (run browseThenOffline processStart)) = true ->
     existsb isGoBack
       (snd (step (t0 + 30000) HardwareBackPress
               (fst (run browseThenOffline processStart)))) = true
     /\ existsb isAlert
          (snd (step (t0 + 30000) HardwareBackPress
                  (fst (run browseThenOffline processStart)))) = false).
Proof.
  intros H. destruct H as [H _]; [reflexivity | reflexivity |].
  vm_compute in H. discriminate H.
Qed.

(** C3, amended.  [backAction] calls [goBack()] and opens no dialog exactly
    when [showWebView] is [true], the [WebView] is mounted (the device is
    online, so [webViewRef.current] is attached) and [canGoBack] is
    [true]; in every other case it opens the exit dialog and does not call
    [goBack()].  It always returns [true] and leaves the state alone, so a
    back press never leaves the app by itself: [BackHandler.exitApp()] is
    called only by a press on a dialog button that carries it, and of the
    two buttons of the dialog only Exit does. *)
Theorem back_routing_amended (now : Z) (e : Event) (s : State) :
  backAction now s
  = (true, s,
     if showWebView s && isConnected s && canGoBack s
     then [WebViewGoBack] else [exitAlert])
  /\ step now HardwareBackPress s
     = (s, if showWebView s && isConnected s && canGoBack s
           then [WebViewGoBack] else [exitAlert])
  /\ existsb isExitApp (snd (step now e s))
     = match e with
       | AlertButtonPress b => runsExitApp b
       | _ => false
       end
  /\ exitAlert = AlertAlert "Exit App" "Are you sure you want to exit the app?"
                            [cancelButton; exitButton] true
  /\ map runsExitApp [cancelButton; exitButton] = [false; true].
Proof.
  split; [|split; [|split; [|split]]].
  - handler. rewrite webViewRef_current_spec.
    destruct (showWebView s), (isConnected s), (canGoBack s); reflexivity.
  - apply step_HardwareBackPress.
  - destruct e; try reflexivity.
    + rewrite step_AdLoaded.
      destruct (adDue now (lastAdTime s)); reflexivity.
    + rewrite step_HardwareBackPress.
      destruct (showWebView s && isConnected s && canGoBack s); reflexivity.
    + unfold step, dispatch, onAlertButtonPress, runsExitApp.
      destruct (onPress b) as [[]|]; reflexivity.
    + rewrite step_Refresh.
      destruct (showWebView s && isConnected s); reflexivity.
    + rewrite step_TimeoutFired. destruct (timeouts s); reflexivity.
  - reflexivity.
  - reflexivity.
Qed.

(** ** What is rendered (C4) *)

(** C4, as stated, fails while the gate is unresolved: when the connection
    is down at launch, [isConnected] is [false] and the view is blank (the
    banner only), not the offline message. *)
Lemma offline_rendering_counterexample :
  ~ (isConnected (fst (run offlineAtLaunch processStart)) = false ->
     showsOffline (render (fst (run offlineAtLaunch processStart))) = true
     /\ hasWebView (render (fst (run offlineAtLaunch processStart))) = false).
Proof.
  intros H. destruct H as [H _]; [reflexivity |].
  vm_compute in H. discriminate H.
Qed.

(** C4, amended.  The [WebView] is rendered exactly when [showWebView] and
    [isConnected] are both [true], so never while offline; the offline
    message with its retry control is rendered exactly when [showWebView]
    is [true] and [isConnected] is [false]; while [showWebView] is [false]
    only the banner is rendered, whatever the connectivity. *)
Theorem offline_rendering_amended (s : State) :
  hasWebView (render s) = showWebView s && isConnected s
  /\ showsOffline (render s) = showWebView s && negb (isConnected s)
  /\ onlyBanner (render s) = negb (showWebView s).
Proof.
  split; [|split].
  - apply webViewRef_current_spec.
  - apply showsOffline_render.
  - apply onlyBanner_render.
Qed.

(** ** The CLOSED listener (C5) *)

(** C5.  The CLOSED listener logs, sets [showWebView] to [true] and
    [isLoading] to [false], calls [load()] on the interstitial, and touches
    nothing else; the content then stays visible along every continuation
    of the session, whether or not the requested ad ever loads. *)
Theorem onClosed_reveals_and_preloads
  (now : Z) (s : State) (tr : list (Z * Event)) :
  step now AdClosed s
  = (mkState (lastAdTime s) true false (canGoBack s)
             (refreshing s) (isConnected s) (timeouts s),
     [ConsoleLog InterstitialClosed; InterstitialLoad])
  /\ showWebView (fst (step now AdClosed s)) = true
  /\ isLoading (fst (step now AdClosed s)) = false
  /\ count (fun e => match e with InterstitialLoad => true | _ => false end)
           (snd (step now AdClosed s)) = 1%nat
  /\ showWebView (fst (run tr (fst (step now AdClosed s)))) = true.
Proof.
  repeat split.
  rewrite run_showWebView. reflexivity.
Qed.

(** ** Refresh (C6) *)

(** The second timer is observable: a refresh started at [t0 + 6200] has
    its flag cleared by the timer that is due at [t0 + 6500], 300 ms
    later. *)
Lemma overlapping_refresh_cut_short :
  refreshing (fst (run overlappingRefreshes processStart)) = true
  /\ timeouts (fst (run overlappingRefreshes processStart))
     = [t0 + 6500; t0 + 7200]
  /\ refreshing (fst (step (t0 + 6500) TimeoutFired
                        (fst (run overlappingRefreshes processStart))))
     = false.
Proof. vm_compute. repeat split; reflexivity. Qed.

(** C6, as stated, fails: [handleRefresh] has no test of [refreshing].
    Invoked again while the flag is [true] it calls [reload()] again and
    queues a second timer next to the pending one; and that timer clears
    the flag of a refresh started at [t0 + 6200] when it fires at
    [t0 + 6500], before the window of 1000 ms has passed. *)
Lemma refresh_idempotence_counterexample :
  ~ (refreshing (fst (run oneRefresh processStart)) = true ->
     timeouts (fst (step (t0 + 5500) Refresh
                      (fst (run oneRefresh processStart))))
     = timeouts (fst (run oneRefresh processStart))
     /\ count isReload
          (snd (step (t0 + 5500) Refresh (fst (run oneRefresh processStart))))
        = 0%nat)
  /\ ~ (t0 + 6500 < (t0 + 6200) + refreshDelay ->
        refreshing (fst (step (t0 + 6500) TimeoutFired
                           (fst (run overlappingRefreshes processStart))))
        = true).
Proof.
  split.
  - intros H. destruct H as [H _]; [reflexivity |].
    vm_compute in H. discriminate H.
  - intros H. assert (E := H eq_refl).
    vm_compute in E. discriminate E.
Qed.

(** C6, amended.  Invoked while [refreshing] is already [true],
    [handleRefresh] leaves the flag [true] and every other state cell as
    it was, but it is not guarded: it calls [reload()] again when the
    [WebView] is mounted and queues one more timer, due 1000 ms after the
    call.  A timer that fires sets [refreshing] to [false] whatever
    [isLoading] is, and does not touch [isLoading]. *)
Theorem refresh_reentrant_amended (now now' : Z) (s s1 : State) :
  refreshing s = true ->
  (let s' := fst (step now Refresh s) in
   lastAdTime s' = lastAdTime s
   /\ showWebView s' = showWebView s
   /\ isLoading s' = isLoading s
   /\ canGoBack s' = canGoBack s
   /\ refreshing s' = refreshing s
   /\ isConnected s' = isConnected s
   /\ timeouts s' = timeouts s ++ [now + 1000])
  /\ snd (step now Refresh s)
     = (if showWebView s && isConnected s then [WebViewReload] else [])
       ++ [SetTimeout 1000]
  /\ refreshing (fst (step now' TimeoutFired s1))
     = match timeouts s1 with
       | [] => refreshing s1
       | _ :: _ => false
       end
  /\ isLoading (fst (step now' TimeoutFired s1)) = isLoading s1
  /\ snd (step now' TimeoutFired s1) = [].
Proof.
  intros Hr. rewrite step_Refresh, step_TimeoutFired. cbn [fst snd].
  repeat split; try (destruct (timeouts s1); reflexivity).
  cbn. symmetry. exact Hr.
Qed.

Lemma refresh_reentrant_amended_witness :
  refreshing (fst (run oneRefresh processStart)) = true
  /\ timeouts (fst (step (t0 + 5500) Refresh
                      (fst (run oneRefresh processStart))))
     = [t0 + 6000; t0 + 6500].
Proof.
  split; [reflexivity |].
  destruct (refresh_reentrant_amended (t0 + 5500) 0
              (fst (run oneRefresh processStart)) processStart)
    as [[_ [_ [_ [_ [_ [_ H]]]]]] _]; [reflexivity |].
  rewrite H. reflexivity.
Defined.

(** ** Connectivity (C7) *)

(** C7.  [isConnected] is [true] on every mount; a notification whose
    [isConnected] is [null] or [undefined] stores [true], and one that
    carries a boolean stores that boolean.  The listener changes no other
    cell and calls nothing. *)
Theorem isConnected_fail_open
  (last : option Z) (now : Z) (b : bool) (s : State) :
  isConnected (mount last) = true
  /\ isConnected (fst (step now (NetInfoChange None) s)) = true
  /\ isConnected (fst (step now (NetInfoChange (Some b)) s)) = b
  /\ step now (NetInfoChange (Some b)) s
     = (mkState (lastAdTime s) (showWebView s) (isLoading s) (canGoBack s)
                (refreshing s) b (timeouts s), []).
Proof. repeat split. Qed.

(** ** WebView load errors (C8) *)

(** C8.  [onError] warns with the native event and sets [isLoading] to
    [false]; it leaves [isConnected] and every other cell as they were, so
    the offline screen is rendered after the error exactly when it was
    before.  No handler other than the NetInfo listener changes
    [isConnected]. *)
Theorem onError_keeps_connectivity
  (now : Z) (nativeEvent : string) (e : Event) (s : State) :
  step now (LoadError nativeEvent) s
  = (mkState (lastAdTime s) (showWebView s) false (canGoBack s)
             (refreshing s) (isConnected s) (timeouts s),
     [ConsoleWarn "WebView error: " nativeEvent])
  /\ isLoading (fst (step now (LoadError nativeEvent) s)) = false
  /\ isConnected (fst (step now (LoadError nativeEvent) s)) = isConnected s
  /\ showsOffline (render (fst (step now (LoadError nativeEvent) s)))
     = showsOffline (render s)
  /\ isConnected (fst (step now e s))
     = match e with
       | NetInfoChange c => JS.nullish c true
       | _ => isConnected s
       end.
Proof.
  split; [reflexivity|]. split; [reflexivity|]. split; [reflexivity|].
  split.
  - rewrite !showsOffline_render. reflexivity.
  - destruct e; try reflexivity.
    + rewrite step_AdLoaded.
      destruct (adDue now (lastAdTime s)); reflexivity.
    + rewrite step_HardwareBackPress. reflexivity.
    + unfold step, dispatch, onAlertButtonPress.
      destruct (onPress b) as [[]|]; reflexivity.
    + rewrite step_Refresh. reflexivity.
    + rewrite step_TimeoutFired. destruct (timeouts s); reflexivity.
Qed.

(** ** Retry on the offline screen (C9) *)

(** On the offline screen the [WebView] is not mounted, so
    [webViewRef.current?.reload()] calls nothing: [handleRefresh] only
    raises [refreshing] and queues its timer, and the offline screen is
    rendered again. *)
Lemma handleRefresh_offline (now : Z) (s : State) :
  showWebView s = true ->
  isConnected s = false ->
  snd (step now Refresh s) = [SetTimeout 1000]
  /\ isConnected (fst (step now Refresh s)) = false
  /\ showsOffline (render (fst (step now Refresh s))) = true.
Proof.
  intros Hs Hc. rewrite step_Refresh, Hs, Hc. cbn [fst snd andb app].
  split; [reflexivity|]. split; [reflexivity|].
  rewrite showsOffline_render. reflexivity.
Qed.

(** C9.  After the gate resolved and the connection dropped, the offline
    screen with its Try Again control is rendered; a press on it calls
    [setTimeout] and nothing else, in particular not [reload()], and the
    connectivity flag is not looked up again: the offline screen is
    rendered afterwards as before. *)
Theorem retry_offline_calls_no_reload :
  let s := fst (run resolvedThenOffline processStart) in
  showWebView s = true
  /\ isConnected s = false
  /\ hasRetryControl "Try Again" (render s) = true
  /\ webViewRef_current s = false
  /\ snd (step (t0 + 30000) Refresh s) = [SetTimeout 1000]
  /\ count isReload (snd (step (t0 + 30000) Refresh s)) = 0%nat
  /\ isConnected (fst (step (t0 + 30000) Refresh s)) = false
  /\ showsOffline (render (fst (step (t0 + 30000) Refresh s))) = true.
Proof. vm_compute. repeat split; reflexivity. Qed.

(** ** Visibility is monotone (C10) *)

(** C10.  [showWebView] is [false] on every mount, and once it is [true]
    it is [true] after every event, hence at the end of every session. *)
Theorem showWebView_monotone
  (last : option Z) (now : Z) (e : Event) (tr : list (Z * Event))
  (s : State) :
  showWebView (mount last) = false
  /\ (showWebView s = true ->
      showWebView (fst (step now e s)) = true
      /\ showWebView (fst (run tr s)) = true).
Proof.
  split; [reflexivity|]. intros H.
  rewrite step_showWebView, run_showWebView, H. split; reflexivity.
Qed.

Lemma showWebView_monotone_witness :
  showWebView (fst (run launch processStart)) = true
  /\ showWebView
       (fst (run [(t0 + 3500, AdLoaded);
                  (t0 + 4000, LoadStart);
                  (t0 + 4100, LoadError "net::ERR_FAILED");
                  (t0 + 5000, NetInfoChange (Some false));
                  (t0 + 6000, Refresh);
                  (t0 + 7000, TimeoutFired);
                  (t0 + 8000, HardwareBackPress);
                  (t0 + 9000, AlertButtonPress cancelButton);
                  (t0 + 400000, AdLoaded);
                  (t0 + 410000, AdClosed)]
               (fst (run launch processStart)))) = true.
Proof.
  split; [reflexivity |].
  apply (showWebView_monotone None 0 AdLoaded
           [(t0 + 3500, AdLoaded);
            (t0 + 4000, LoadStart);
            (t0 + 4100, LoadError "net::ERR_FAILED");
            (t0 + 5000, NetInfoChange (Some false));
            (t0 + 6000, Refresh);
            (t0 + 7000, TimeoutFired);
            (t0 + 8000, HardwareBackPress);
            (t0 + 9000, AlertButtonPress cancelButton);
            (t0 + 400000, AdLoaded);
            (t0 + 410000, AdClosed)]
           (fst (run launch processStart))).
  reflexivity.
Defined.

(** * Beyond the gate: what the component keeps along a whole session *)

(** Case analysis on the event of a step, with the handler run. *)
Ltac step_cases now e s :=
  destruct e as [?c | | | | ?b | ?c | | | ?ev | | ];
  [ idtac
  | rewrite ?step_AdLoaded; destruct (adDue now (lastAdTime s)) eqn:?Hdue
  | idtac
  | rewrite ?step_HardwareBackPress
  | unfold step, dispatch, onAlertButtonPress, isExitPress, runsExitApp;
    destruct (onPress b) as [[]|] eqn:?Hpress
  | idtac
  | idtac
  | idtac
  | idtac
  | rewrite ?step_Refresh
  | rewrite ?step_TimeoutFired; destruct (timeouts s) eqn:?Hqueue ].

Lemma count_app (p : Effect -> bool) (a b : list Effect) :
  count p (a ++ b) = (count p a + count p b)%nat.
Proof. unfold count. rewrite filter_app, length_app. reflexivity. Qed.

Lemma occurrences_cons (p : Event -> bool) (now : Z) (e : Event)
  (tr : list (Z * Event)) :
  occurrences p ((now, e) :: tr)
  = ((if p e then 1 else 0) + occurrences p tr)%nat.
Proof. unfold occurrences. cbn. destruct (p e); reflexivity. Qed.

Lemma step_lastAdTime (now : Z) (e : Event) (s : State) :
  lastAdTime (fst (step now e s))
  = if isAdLoaded e && adDue now (lastAdTime s)
    then Some now else lastAdTime s.
Proof. step_cases now e s; reflexivity. Qed.

Lemma step_shows (now : Z) (e : Event) (s : State) :
  existsb isShow (snd (step now e s))
  = isAdLoaded e && adDue now (lastAdTime s).
Proof.
  step_cases now e s; try reflexivity.
  - destruct (showWebView s && isConnected s && canGoBack s); reflexivity.
  - destruct (showWebView s && isConnected s); reflexivity.
Qed.

Lemma revealed_without_ad_events (tr : list (Z * Event)) (s : State) :
  Forall (fun ev => isAdLoaded (snd ev) = false
                    /\ isAdClosed (snd ev) = false) tr ->
  revealed tr s = false.
Proof.
  revert s. induction tr as [|[now e] tr IH]; intros s Hno.
  - reflexivity.
  - inversion Hno as [|? ? [Hl Hc] Hrest]; subst. cbn [snd] in Hl, Hc.
    cbn [revealed]. rewrite (IH _ Hrest), orb_false_r.
    destruct e; try reflexivity; discriminate.
Qed.

(** ** The gate opens on ad events only *)

(** X1.  Nothing but the ad SDK opens the gate.  Along a session without
    LOADED and CLOSED events (the ad never loads), connectivity changes,
    page events, refreshes, timers, back presses and dialog presses leave
    [showWebView] at [false], and the view stays blank above the banner. *)
Theorem gate_waits_for_ad_event (tr : list (Z * Event)) (s : State) :
  showWebView s = false ->
  Forall (fun ev => isAdLoaded (snd ev) = false
                    /\ isAdClosed (snd ev) = false) tr ->
  showWebView (fst (run tr s)) = false
  /\ onlyBanner (render (fst (run tr s))) = true
  /\ hasWebView (render (fst (run tr s))) = false
  /\ showsOffline (render (fst (run tr s))) = false.
Proof.
  intros Hs Hno.
  assert (E : showWebView (fst (run tr s)) = false).
  { rewrite run_showWebView, Hs, (revealed_without_ad_events _ _ Hno).
    reflexivity. }
  rewrite onlyBanner_render, showsOffline_render.
  fold (webViewRef_current (fst (run tr s))).
  rewrite webViewRef_current_spec, E. repeat split.
Qed.

Lemma gate_waits_for_ad_event_witness :
  showWebView
    (fst (run [(t0, NetInfoChange (Some false));
               (t0 + 1000, Refresh);
               (t0 + 2000, TimeoutFired);
               (t0 + 3000, HardwareBackPress);
               (t0 + 4000, AlertButtonPress cancelButton);
               (t0 + 5000, NetInfoChange None)]
            processStart)) = false.
Proof.
  apply (gate_waits_for_ad_event
           [(t0, NetInfoChange (Some false));
            (t0 + 1000, Refresh);
            (t0 + 2000, TimeoutFired);
            (t0 + 3000, HardwareBackPress);
            (t0 + 4000, AlertButtonPress cancelButton);
            (t0 + 5000, NetInfoChange None)]
           processStart).
  - reflexivity.
  - repeat constructor.
Defined.

(** ** The timestamp of the last ad *)

Lemma last_cons_default {A : Type} (x : A) (l : list A) (d : A) :
  last (x :: l) d = last l x.
Proof.
  revert x d. induction l as [|y l IH]; intros x d.
  - reflexivity.
  - change (last (x :: y :: l) d) with (last (y :: l) d).
    rewrite (IH y d), (IH y x). reflexivity.
Qed.

Lemma last_app_default {A : Type} (a b : list A) (d : A) :
  last (a ++ b) d = last b (last a d).
Proof.
  revert d. induction a as [|x a IH]; intros d.
  - reflexivity.
  - rewrite <- app_comm_cons, !last_cons_default. apply IH.
Qed.

(** X2.  [lastAdTime] is written by [show()] and by nothing else: at the
    end of a session it is the clock reading of the last call of
    [show()], and its value at the start if there was none. *)
Theorem lastAdTime_is_last_show (tr : list (Z * Event)) (s : State) :
  lastAdTime (fst (run tr s))
  = last (map Some (showTimes tr s)) (lastAdTime s).
Proof.
  revert s. induction tr as [|[now e] tr IH]; intros s.
  - reflexivity.
  - rewrite run_cons. cbn [fst showTimes].
    rewrite IH, map_app, last_app_default, step_lastAdTime, step_shows.
    destruct (isAdLoaded e && adDue now (lastAdTime s)); reflexivity.
Qed.

(** X3.  The cooldown along a session.  With a clock that never reads
    zero, any two consecutive calls of [show()] are at least five minutes
    apart, and the first one is at least five minutes after the
    [lastAdTime] the session started with, if there was one.  The clock
    need not be monotone for this. *)
Theorem shows_are_spaced (tr : list (Z * Event)) (s : State) :
  Forall (fun ev => fst ev <> 0) tr ->
  lastAdTime s <> Some 0 ->
  spaced (lastAdTime s) (showTimes tr s) = true.
Proof.
  revert s. induction tr as [|[now e] tr IH]; intros s Hclk Hs.
  - reflexivity.
  - inversion Hclk as [|? ? Hnow Hrest]; subst. cbn [fst] in Hnow.
    cbn [showTimes]. rewrite step_shows.
    assert (Hnext : lastAdTime (fst (step now e s)) <> Some 0).
    { rewrite step_lastAdTime.
      destruct (isAdLoaded e && adDue now (lastAdTime s)); congruence. }
    specialize (IH _ Hrest Hnext). rewrite step_lastAdTime in IH.
    destruct (isAdLoaded e && adDue now (lastAdTime s)) eqn:E.
    + cbn [app spaced]. rewrite IH, andb_true_r.
      apply andb_true_iff in E. destruct E as [_ E].
      unfold adDue in E. destruct (lastAdTime s) as [t|]; [|reflexivity].
      cbn in E. destruct (Z.eqb_spec t 0) as [Ht|Hne].
      * exfalso. apply Hs. f_equal. exact Ht.
      * exact E.
    + exact IH.
Qed.

Lemma shows_are_spaced_witness :
  spaced None
    (showTimes [(t0, AdLoaded); (t0 + 3000, AdClosed); (t0 + 3500, AdLoaded);
                (t0 + 400000, AdLoaded); (t0 + 410000, AdClosed);
                (t0 + 410500, AdLoaded)]
       processStart) = true.
Proof.
  apply (shows_are_spaced
           [(t0, AdLoaded); (t0 + 3000, AdClosed); (t0 + 3500, AdLoaded);
            (t0 + 400000, AdLoaded); (t0 + 410000, AdClosed);
            (t0 + 410500, AdLoaded)]
           processStart).
  - repeat constructor; discriminate.
  - discriminate.
Defined.

(** X4.  Every LOADED event is answered by exactly one of [show()] and the
    skip, and [load()] is called once per CLOSED event and by nothing
    else: over a session the shows and the skips add up to the LOADED
    events, and the loads equal the CLOSED events. *)
Theorem ad_calls_match_ad_events (tr : list (Z * Event)) (s : State) :
  (count isShow (snd (run tr s)) + count isSkip (snd (run tr s)))%nat
  = occurrences isAdLoaded tr
  /\ count isLoad (snd (run tr s)) = occurrences isAdClosed tr
  /\ count isShow (snd (run tr s)) = List.length (showTimes tr s).
Proof.
  revert s. induction tr as [|[now e] tr IH]; intros s.
  - repeat split.
  - destruct (IH (fst (step now e s))) as [IH1 [IH2 IH3]].
    rewrite run_cons. cbn [snd showTimes].
    rewrite !count_app, !occurrences_cons, length_app, <- IH1, <- IH2, <- IH3.
    rewrite step_shows.
    step_cases now e s; cbn -[Nat.add]; try rewrite Hdue;
      try (destruct (showWebView s && isConnected s && canGoBack s));
      try (destruct (showWebView s && isConnected s));
      cbn; repeat split; lia.
Qed.

(** ** The WebView ref *)

(** X5.  No handler calls a method of the [WebView] while it is not
    mounted: when [webViewRef.current] is [null], no event leads to
    [goBack()] or [reload()]. *)
Theorem webview_calls_need_mounted_webview
  (now : Z) (e : Event) (s : State) :
  webViewRef_current s = false ->
  count isGoBack (snd (step now e s)) = 0%nat
  /\ count isReload (snd (step now e s)) = 0%nat.
Proof.
  rewrite webViewRef_current_spec. intros Href.
  step_cases now e s; try (split; reflexivity).
  - rewrite Href. split; reflexivity.
  - rewrite Href. split; reflexivity.
Qed.

Lemma webview_calls_need_mounted_webview_witness :
  count isGoBack
    (snd (step (t0 + 30000) HardwareBackPress
            (fst (run browseThenOffline processStart)))) = 0%nat
  /\ count isReload
       (snd (step (t0 + 30000) HardwareBackPress
               (fst (run browseThenOffline processStart)))) = 0%nat.
Proof.
  apply (webview_calls_need_mounted_webview (t0 + 30000) HardwareBackPress
           (fst (run browseThenOffline processStart))).
  reflexivity.
Defined.

(** ** The refresh flag and its timers *)

Lemma pending_timer_step (now : Z) (e : Event) (s : State) :
  (refreshing s = true -> timeouts s <> []) ->
  refreshing (fst (step now e s)) = true ->
  timeouts (fst (step now e s)) <> [].
Proof.
  intros Hinv.
  step_cases now e s; cbn [fst refreshing timeouts]; try exact Hinv.
  - intros _ H. apply app_eq_nil in H. destruct H as [_ H]. discriminate H.
  - rewrite Hqueue. exact Hinv.
  - discriminate.
Qed.

(** X6.  The refresh indicator is never left on without a timer to clear
    it: in every state a session reaches from a mount, [refreshing] being
    [true] means that a [setTimeout] callback is still queued. *)
Theorem refreshing_has_pending_timer
  (last : option Z) (tr : list (Z * Event)) :
  refreshing (fst (run tr (mount last))) = true ->
  timeouts (fst (run tr (mount last))) <> [].
Proof.
  assert (G : forall (tr' : list (Z * Event)) (s : State),
             (refreshing s = true -> timeouts s <> []) ->
             refreshing (fst (run tr' s)) = true ->
             timeouts (fst (run tr' s)) <> []).
  { induction tr' as [|[now e] tr' IH]; intros s Hinv.
    - exact Hinv.
    - rewrite run_cons. cbn [fst]. apply IH.
      apply pending_timer_step. exact Hinv. }
  apply G. cbn. discriminate.
Qed.

Lemma refreshing_has_pending_timer_witness :
  timeouts (fst (run overlappingRefreshes (mount None))) <> [].
Proof.
  apply (refreshing_has_pending_timer None overlappingRefreshes).
  reflexivity.
Defined.

(** X7.  When as many timers have fired as were queued, the queue is empty
    and [refreshing] is [false], whatever it was and whatever the page is
    doing; no other cell has changed and nothing was called. *)
Theorem fireAll_clears_refreshing (clocks : list Z) (s : State) :
  List.length clocks = List.length (timeouts s) ->
  clocks <> [] ->
  run (fireAll clocks) s
  = (mkState (lastAdTime s) (showWebView s) (isLoading s) (canGoBack s)
             false (isConnected s) [], []).
Proof.
  revert s. induction clocks as [|c clocks IH]; intros s Hlen Hne.
  - contradiction.
  - cbn [fireAll map]. rewrite run_cons, step_TimeoutFired.
    destruct (timeouts s) as [|d rest] eqn:Hq; [discriminate Hlen|].
    cbn [fst snd]. cbn in Hlen. injection Hlen as Hlen.
    destruct clocks as [|c' clocks].
    + destruct rest; [reflexivity | discriminate Hlen].
    + fold (fireAll (c' :: clocks)).
      rewrite IH; [reflexivity | exact Hlen | discriminate].
Qed.

Lemma fireAll_clears_refreshing_witness :
  refreshing
    (fst (run (fireAll [t0 + 6500; t0 + 7200])
            (fst (run overlappingRefreshes processStart)))) = false.
Proof.
  rewrite (fireAll_clears_refreshing [t0 + 6500; t0 + 7200]
             (fst (run overlappingRefreshes processStart))).
  - reflexivity.
  - reflexivity.
  - discriminate.
Defined.

(** X8.  A refresh and its timer cancel out: started with the indicator
    off and no timer queued, [handleRefresh] followed by the callback of
    its timer brings the component back to the state it started in. *)
Theorem refresh_then_timer_round_trip (now now' : Z) (s : State) :
  refreshing s = false ->
  timeouts s = [] ->
  fst (run [(now, Refresh); (now', TimeoutFired)] s) = s.
Proof.
  intros Hr Hq. rewrite run_cons, step_Refresh. cbn [fst].
  rewrite run_cons, step_TimeoutFired. cbn [fst timeouts].
  rewrite Hq. cbn.
  destruct s as [l sw il cg r ic q]. cbn in *. subst. reflexivity.
Qed.

Lemma refresh_then_timer_round_trip_witness :
  fst (run [(t0 + 5000, Refresh); (t0 + 6000, TimeoutFired)]
         (fst (run launchThenPreload processStart)))
  = fst (run launchThenPreload processStart).
Proof.
  apply (refresh_then_timer_round_trip (t0 + 5000) (t0 + 6000)
           (fst (run launchThenPreload processStart)));
    reflexivity.
Defined.

Lemma sorted_snoc (l : list Z) (x : Z) :
  StronglySorted Z.le l ->
  Forall (fun d => d <= x) l ->
  StronglySorted Z.le (l ++ [x]).
Proof.
  induction l as [|d l IH]; intros Hs Hb.
  - cbn. constructor; constructor.
  - inversion Hs as [|? ? Hs' Hd]; subst.
    inversion Hb as [|? ? Hdx Hb']; subst.
    cbn. constructor.
    + apply IH; assumption.
    + apply Forall_app. split; [exact Hd | constructor; [exact Hdx | constructor]].
Qed.

Lemma due_order_step (c now : Z) (e : Event) (s : State) :
  c <= now ->
  StronglySorted Z.le (timeouts s) ->
  Forall (fun d => d <= c + refreshDelay) (timeouts s) ->
  StronglySorted Z.le (timeouts (fst (step now e s)))
  /\ Forall (fun d => d <= now + refreshDelay) (timeouts (fst (step now e s))).
Proof.
  intros Hc Hs Hb.
  assert (Hb' : Forall (fun d => d <= now + refreshDelay) (timeouts s)).
  { eapply Forall_impl; [|exact Hb]. cbn. intros d Hd. lia. }
  step_cases now e s; cbn [fst timeouts]; try (split; assumption).
  - split.
    + apply sorted_snoc; assumption.
    + apply Forall_app. split; [exact Hb'|]. constructor; [lia | constructor].
  - rewrite Hqueue. split; assumption.
  - inversion Hs; subst. inversion Hb'; subst. split; assumption.
Qed.

(** X9.  Timers are queued in the order in which they are due: with a
    clock that does not go backwards, the queue of pending [setTimeout]
    callbacks is sorted by due time in every state a session reaches from
    a mount, so the oldest timer is always the next one due. *)
Theorem timers_queued_in_due_order
  (last : option Z) (c : Z) (tr : list (Z * Event)) :
  nondecreasing c (map fst tr) = true ->
  StronglySorted Z.le (timeouts (fst (run tr (mount last)))).
Proof.
  assert (G : forall (tr' : list (Z * Event)) (c' : Z) (s : State),
             nondecreasing c' (map fst tr') = true ->
             StronglySorted Z.le (timeouts s) ->
             Forall (fun d => d <= c' + refreshDelay) (timeouts s) ->
             StronglySorted Z.le (timeouts (fst (run tr' s)))).
  { induction tr' as [|[now e] tr' IH]; intros c' s Hclk Hs Hb.
    - exact Hs.
    - cbn [map fst nondecreasing] in Hclk.
      apply andb_true_iff in Hclk. destruct Hclk as [Hle Hclk].
      apply Z.leb_le in Hle.
      destruct (due_order_step c' now e s Hle Hs Hb) as [Hs' Hb'].
      rewrite run_cons. cbn [fst]. apply (IH now); assumption. }
  intros Hclk. apply (G tr c); [exact Hclk | constructor | constructor].
Qed.

Lemma timers_queued_in_due_order_witness :
  StronglySorted Z.le
    (timeouts (fst (run overlappingRefreshes (mount None)))).
Proof.
  apply (timers_queued_in_due_order None t0 overlappingRefreshes).
  reflexivity.
Defined.

(** ** Flags that follow their notifications *)

Lemma step_canGoBack (now : Z) (e : Event) (s : State) :
  canGoBack (fst (step now e s))
  = match e with
    | NavigationStateChange c => c
    | _ => canGoBack s
    end.
Proof. step_cases now e s; reflexivity. Qed.

Lemma step_isConnected (now : Z) (e : Event) (s : State) :
  isConnected (fst (step now e s))
  = match e with
    | NetInfoChange c => JS.nullish c true
    | _ => isConnected s
    end.
Proof. step_cases now e s; reflexivity. Qed.

(** X10.  [canGoBack] follows the navigation events and nothing else: at
    the end of a session it is the value of the last
    [onNavigationStateChange], or unchanged if there was none.  In
    particular it is not reset when the connection drops and the
    [WebView] is unmounted. *)
Theorem canGoBack_is_last_navigation (tr : list (Z * Event)) (s : State) :
  canGoBack (fst (run tr s)) = last (navigationValues tr) (canGoBack s).
Proof.
  revert s. induction tr as [|[now e] tr IH]; intros s.
  - reflexivity.
  - rewrite run_cons. cbn [fst]. rewrite IH, step_canGoBack.
    unfold navigationValues. cbn [flat_map snd].
    rewrite last_app_default. destruct e; reflexivity.
Qed.

Lemma run_isConnected (tr : list (Z * Event)) (s : State) :
  isConnected (fst (run tr s)) = last (connectivityValues tr) (isConnected s).
Proof.
  revert s. induction tr as [|[now e] tr IH]; intros s.
  - reflexivity.
  - rewrite run_cons. cbn [fst]. rewrite IH, step_isConnected.
    unfold connectivityValues. cbn [flat_map snd].
    rewrite last_app_default. destruct e; reflexivity.
Qed.

(** X11.  [isConnected] follows the NetInfo notifications and nothing
    else: at the end of a session it is the value of the last
    notification, with [true] for [null], or unchanged if there was
    none. *)
Theorem isConnected_is_last_notification
  (tr : list (Z * Event)) (s : State) :
  isConnected (fst (run tr s)) = last (connectivityValues tr) (isConnected s).
Proof. exact (run_isConnected tr s). Qed.

(** ** Calls counted against events *)

(** X12.  Over a whole session [BackHandler.exitApp()] is called once for
    every press on a dialog button that carries it and never otherwise:
    back presses, however many, do not leave the app. *)
Theorem exits_match_exit_presses (tr : list (Z * Event)) (s : State) :
  count isExitApp (snd (run tr s)) = occurrences isExitPress tr.
Proof.
  revert s. induction tr as [|[now e] tr IH]; intros s.
  - reflexivity.
  - rewrite run_cons. cbn [snd].
    rewrite count_app, occurrences_cons, <- (IH (fst (step now e s))).
    f_equal.
    step_cases now e s; cbn [snd isExitPress runsExitApp]; try reflexivity.
    + destruct (showWebView s && isConnected s && canGoBack s); reflexivity.
    + destruct (showWebView s && isConnected s); reflexivity.
Qed.

(** X13.  Every hardware back press is answered by exactly one of
    [goBack()] and the exit dialog, and nothing else calls either: over a
    session the two add up to the number of back presses. *)
Theorem back_presses_are_answered (tr : list (Z * Event)) (s : State) :
  (count isGoBack (snd (run tr s)) + count isAlert (snd (run tr s)))%nat
  = occurrences isBackPress tr.
Proof.
  revert s. induction tr as [|[now e] tr IH]; intros s.
  - reflexivity.
  - rewrite run_cons. cbn [snd].
    rewrite !count_app, occurrences_cons, <- (IH (fst (step now e s))).
    assert (E : (count isGoBack (snd (step now e s))
                 + count isAlert (snd (step now e s)))%nat
                = if isBackPress e then 1%nat else 0%nat).
    { step_cases now e s; cbn [snd isBackPress]; try reflexivity.
      - destruct (showWebView s && isConnected s && canGoBack s); reflexivity.
      - destruct (showWebView s && isConnected s); reflexivity. }
    lia.
Qed.

(** X14.  Every call of [handleRefresh] sets exactly one timer and calls
    [reload()] at most once, and nothing else does either: over a session
    the timers set equal the refreshes, and the reloads do not exceed
    them. *)
Theorem refreshes_set_one_timer_each (tr : list (Z * Event)) (s : State) :
  count isSetTimeout (snd (run tr s)) = occurrences isRefresh tr
  /\ (count isReload (snd (run tr s)) <= occurrences isRefresh tr)%nat.
Proof.
  revert s. induction tr as [|[now e] tr IH]; intros s.
  - split; [reflexivity | apply le_n].
  - destruct (IH (fst (step now e s))) as [IH1 IH2].
    rewrite run_cons. cbn [snd].
    rewrite !count_app, occurrences_cons, <- IH1.
    assert (E : count isSetTimeout (snd (step now e s))
                = (if isRefresh e then 1%nat else 0%nat)
                /\ (count isReload (snd (step now e s))
                    <= if isRefresh e then 1 else 0)%nat).
    { step_cases now e s; cbn [snd isRefresh];
        try (split; [reflexivity | apply le_n]).
      - destruct (showWebView s && isConnected s && canGoBack s);
          split; [reflexivity | apply le_n | reflexivity | apply le_n].
      - destruct (showWebView s && isConnected s); cbn;
          split; try reflexivity; lia. }
    destruct E as [E1 E2]. rewrite IH1 in *. split; lia.
Qed.

(** ** Start-up *)

(** X15.  [initializeApp] ends in exactly one of two ways: when every
    [await] it reaches resolves it calls [load()] once and warns about
    nothing; when one rejects it warns once, with the first rejection,
    and never calls [load()]. *)
Theorem initializeApp_loads_or_warns
  (os : PlatformOS) (request : Awaited PermissionStatus)
  (initialize : Awaited unit) :
  List.length (filter isStartupLoad (initializeApp os request initialize))
  = (if startupResolves os request initialize then 1%nat else 0%nat)
  /\ List.length (filter isWarnCaught (initializeApp os request initialize))
     = (if startupResolves os request initialize then 0%nat else 1%nat)
  /\ last (initializeApp os request initialize) MobileAdsInitialize
     = match os, request, initialize with
       | android, Rejected err, _ => WarnCaught err
       | _, _, Rejected err => WarnCaught err
       | _, _, Resolved _ => StartupLoad
       end.
Proof.
  destruct os, request as [r|err], initialize as [u|err'];
    try destruct r; repeat split.
Qed.

(** X16.  The permission is asked for on Android only, before anything
    else, and its answer gates nothing: granted or denied, the ad SDK is
    initialised and the calls other than the log line are the same.  Only
    a request that rejects keeps [MobileAds().initialize()] from being
    called. *)
Theorem permission_answer_gates_nothing
  (r r' : PermissionStatus) (request : Awaited PermissionStatus)
  (initialize : Awaited unit) :
  filter (fun c => negb (isLogPermission c))
         (initializeApp android (Resolved r) initialize)
  = filter (fun c => negb (isLogPermission c))
           (initializeApp android (Resolved r') initialize)
  /\ skipn 2 (initializeApp android (Resolved r) initialize)
     = initializeApp otherOS request initialize
  /\ existsb isPermissionRequest (initializeApp otherOS request initialize)
     = false
  /\ existsb isMobileAdsInitialize (initializeApp android request initialize)
     = match request with
       | Resolved _ => true
       | Rejected _ => false
       end
  /\ existsb isPermissionRequest
       (firstn 1 (initializeApp android request initialize)) = true.
Proof.
  destruct request as [r0|err], initialize as [u|err'], r, r';
    repeat split.
Qed.

(** ** After the gate: what a session ends on *)

Lemma revealed_by_closed (tr : list (Z * Event)) (s : State) :
  occurrences isAdClosed tr <> 0%nat ->
  revealed tr s = true.
Proof.
  revert s. induction tr as [|[now e] tr IH]; intros s Hc.
  - contradiction.
  - cbn [revealed]. rewrite occurrences_cons in Hc.
    destruct e; try (rewrite IH; [apply orb_true_r | exact Hc]).
    reflexivity.
Qed.

(** X17.  Once an interstitial was closed, what a session ends on is
    decided by connectivity alone: the [WebView] is rendered when the last
    NetInfo notification said connected (or said nothing, or there was
    none since a connected start), and the offline screen otherwise,
    whatever page events, errors, refreshes and back presses occurred. *)
Theorem closed_session_renders_by_connectivity
  (tr : list (Z * Event)) (s : State) :
  occurrences isAdClosed tr <> 0%nat ->
  hasWebView (render (fst (run tr s)))
  = last (connectivityValues tr) (isConnected s)
  /\ showsOffline (render (fst (run tr s)))
     = negb (last (connectivityValues tr) (isConnected s)).
Proof.
  intros Hc.
  fold (webViewRef_current (fst (run tr s))).
  rewrite webViewRef_current_spec, showsOffline_render.
  rewrite run_showWebView, (revealed_by_closed _ _ Hc), orb_true_r.
  rewrite run_isConnected. split; reflexivity.
Qed.

Lemma closed_session_renders_by_connectivity_witness :
  hasWebView (render (fst (run resolvedThenOffline processStart))) = false
  /\ showsOffline (render (fst (run resolvedThenOffline processStart)))
     = true.
Proof.
  apply (closed_session_renders_by_connectivity
           resolvedThenOffline processStart).
  discriminate.
Defined.
